(** * The blog's MDX layout (src/components/MDXLayout.tsx)

    A shallow embedding of the [Layout] component: the head metadata it
    derives from the current page, the [h1] and [CodeBlock] overrides it
    hands to the MDX content, and the element tree that results.

    Strings are Rocq strings (the ASCII range of JavaScript's strings),
    [undefined] is [None], a thrown exception is the left summand of
    [result]. *)

From Stdlib Require Import String Ascii List Bool Arith NArith Lia.
From Stdlib Require Import Sorting.Sorted Sorting.Permutation.
Import ListNotations.
Open Scope string_scope.

Set Implicit Arguments.
Set Warnings "-register-all".

(** ** JavaScript values and exceptions *)

(** The only exception the component itself can raise is the engine's
    [TypeError] for a property read on [undefined]; its message is built
    from the property's name. *)
Inductive JsError : Type :=
| TypeError (message : string).

Definition result (A : Type) : Type := (JsError + A)%type.

Definition ret {A : Type} (a : A) : result A := inr a.

Definition throw {A : Type} (e : JsError) : result A := inl e.

Definition bind {A B : Type} (m : result A) (k : A -> result B) : result B :=
  match m with
  | inl e => inl e
  | inr a => k a
  end.

Notation "x <- m ;; k" := (bind m (fun x => k))
  (at level 61, m at next level, right associativity).

(** [undefined.title] *)
Definition readTitleOfUndefined : JsError :=
  TypeError "Cannot read properties of undefined (reading 'title')".

(** [String.prototype.toUpperCase] on strings of ASCII characters, where it
    maps a-z to A-Z and leaves every other character. Outside that range
    JavaScript maps by Unicode's rules, which can change the length; that
    part is not modelled. *)
Definition upperAscii (c : ascii) : ascii :=
  let n := nat_of_ascii c in
  if ((97 <=? n) && (n <=? 122))%nat then ascii_of_nat (n - 32) else c.

Fixpoint toUpperCase (s : string) : string :=
  match s with
  | EmptyString => EmptyString
  | String c r => String (upperAscii c) (toUpperCase r)
  end.

(** [v || d] for a string-or-undefined [v]: [undefined] and the empty string
    are the falsy ones. *)
Definition orElse (v : option string) (d : string) : string :=
  match v with
  | None => d
  | Some EmptyString => d
  | Some s => s
  end.

(** [v + s] for a string-or-undefined [v]: [undefined] converts to the text
    "undefined". *)
Definition jsPlus (v : option string) (s : string) : string :=
  match v with
  | None => "undefined" ++ s
  | Some d => d ++ s
  end.

(** [String.prototype.includes] *)
Fixpoint includes (s sub : string) : bool :=
  prefix sub s ||
  match s with
  | EmptyString => false
  | String _ r => includes r sub
  end.

(** ** Pages ([PageProps] of the bundler) *)

Module TocNode.
Inductive t : Type :=
| make (level : nat) (title : string) (children : list t).

Definition level (n : t) : nat := let (l, _, _) := n in l.
Definition title (n : t) : string := let (_, s, _) := n in s.
Definition children (n : t) : list t := let (_, _, c) := n in c.
End TocNode.

Module Exports.
Record t : Type := make {
  title : option string;
  description : option string;
  date : option string
}.
End Exports.

Module Page.
Record t : Type := make {
  url : string;
  name : string;
  exports : option Exports.t;
  tableOfContents : option (list TocNode.t)
}.
End Page.

(** [currentPage.exports?.description] and [currentPage.exports?.date] *)
Definition exportsDescription (p : Page.t) : option string :=
  match Page.exports p with
  | None => None
  | Some e => Exports.description e
  end.

Definition exportsDate (p : Page.t) : option string :=
  match Page.exports p with
  | None => None
  | Some e => Exports.date e
  end.


(** [currentPage.tableOfContents?.[0].title]: the optional chain stops at an
    absent table; with a table, element 0 is read and then its [title], which
    throws when the table is empty. *)
Definition tocTitle (p : Page.t) : result (option string) :=
  match Page.tableOfContents p with
  | None => ret None
  | Some [] => throw readTitleOfUndefined
  | Some (entry :: _) => ret (Some (TocNode.title entry))
  end.

(** ** React elements *)

Inductive PropValue : Type :=
| PUndefined
| PString (s : string)
| PInnerHTML (html : string).

Definition Props : Type := list (string * PropValue).

Inductive Element : Type :=
| Undefined
| Text (s : string)
| Elem (tag : string) (props : Props) (children : list Element)
| Fragment (children : list Element).

Definition propOf (v : option string) : PropValue :=
  match v with
  | None => PUndefined
  | Some s => PString s
  end.

Definition childOf (v : option string) : Element :=
  match v with
  | None => Undefined
  | Some s => Text s
  end.

(** The document tree handed to [Layout] as [children]: the MDX content. *)
Inductive MdxNode : Type :=
| MdxText (s : string)
| MdxElement (tag : string) (props : Props) (children : list MdxNode)
| MdxCodeBlock (lang : option string) (props : Props) (code : string).

(** ** What the component imports *)

(** The highlighter package ([Language], [highlight]), the host's
    [Date] formatting ([new Date(s).toLocaleDateString()]) and the avatar's
    URL are not part of the component. *)
Class Runtime : Type := {
  Grammar : Type;
  Language : string -> option Grammar;
  highlight : string -> option Grammar -> result string;
  toLocaleDateString : string -> string;
  avatar : string
}.

Section Components.

Context {R : Runtime}.

Variable currentPage : Page.t.

(** [<time dateTime={currentPage.exports?.date}>...</time>] *)
Definition timeElement : Element :=
  Elem "time"
    [("dateTime", propOf (exportsDate currentPage))]
    [Text (toLocaleDateString (jsPlus (exportsDate currentPage) "T00:00"))].

(** The [h1] override: the heading, then the date. *)
Definition h1 (props : Props) (children : list Element) : Element :=
  Fragment [Elem "h1" props children; timeElement].

(** [treeSitter.Language[props.lang?.toUpperCase() || 'JS']] *)
Definition languageKey (lang : option string) : string :=
  orElse (option_map toUpperCase lang) "JS".

Definition grammarOf (lang : option string) : option Grammar :=
  Language (languageKey lang).

(** [<code dangerouslySetInnerHTML={{__html: ...}} />] *)
Definition codeElement (lang : option string) (code : string) : result Element :=
  html <- highlight code (grammarOf lang) ;;
  ret (Elem "code" [("dangerouslySetInnerHTML", PInnerHTML html)] []).

(** The props a code block arrives with: its [lang], when it has one, and
    the rest. *)
Definition codeBlockProps (lang : option string) (props : Props) : Props :=
  match lang with
  | None => props
  | Some l => ("lang", PString l) :: props
  end.

(** The [CodeBlock] override. *)
Definition CodeBlock (lang : option string) (props : Props) (code : string)
  : result Element :=
  c <- codeElement lang code ;;
  ret (Elem "pre" (codeBlockProps lang props) [c]).

(** Modelled from the spec: the component-composition runtime that walks
    the document tree, which is not part of this repository's sources. It
    dispatches on the node kind: a node named [h1] goes to the [h1]
    override, a code block to the [CodeBlock] override, every other node
    keeps its tag and props, and children keep their order. *)
Fixpoint renderNode (n : MdxNode) : result Element :=
  match n with
  | MdxText s => ret (Text s)
  | MdxElement tag props children =>
      children' <-
        (fix renderAll (l : list MdxNode) : result (list Element) :=
           match l with
           | [] => ret []
           | x :: r =>
               x' <- renderNode x ;;
               r' <- renderAll r ;;
               ret (x' :: r')
           end) children ;;
      ret (if tag =? "h1" then h1 props children'
           else Elem tag props children')
  | MdxCodeBlock lang props code => CodeBlock lang props code
  end.

Fixpoint renderNodes (l : list MdxNode) : result (list Element) :=
  match l with
  | [] => ret []
  | x :: r =>
      x' <- renderNode x ;;
      r' <- renderNodes r ;;
      ret (x' :: r')
  end.

End Components.

Section Layout.

Context {R : Runtime}.

(** The element tree [Layout] returns, with the title read (twice, for
    [title] and [og:title]) and the article rendered. *)
Definition html (currentPage : Page.t) (title ogTitle : option string)
    (article : list Element) : Element :=
  Elem "html" [("lang", PString "en")]
     [ Elem "head" []
         [ Elem "meta" [("charSet", PString "utf-8")] [];
           Elem "meta"
             [("name", PString "viewport");
              ("content", PString "width=device-width, initial-scale=1")] [];
           Elem "title" [] [childOf title];
           Elem "meta"
             [("name", PString "description");
              ("content", propOf (exportsDescription currentPage))] [];
           Elem "meta"
             [("property", PString "og:title");
              ("content", propOf ogTitle)] [];
           Elem "meta"
             [("property", PString "og:description");
              ("content", propOf (exportsDescription currentPage))] [];
           Elem "meta"
             [("property", PString "og:url");
              ("content",
               PString ("https://devongovett.me" ++ Page.url currentPage))] [];
           Elem "meta"
             [("name", PString "twitter:card");
              ("content", PString "summary")] [];
           Elem "meta"
             [("name", PString "twitter:site");
              ("content", PString "@devongovett")] [] ];
       Elem "body" []
         [ Elem "header" []
             [ Elem "img"
                 [("src", PString avatar);
                  ("className", PString "avatar");
                  ("alt", PString "")] [];
               Elem "a" [("href", PString "/index.html")]
                 [Text "Devon's Blog"] ];
           Elem "main" []
             [ Elem "article" [] article ] ] ].

(** [Layout({children, pages, currentPage})]. The head is built first, so
    a failing title read aborts the page before the article is rendered. *)
Definition Layout (children : list MdxNode) (pages : list Page.t)
    (currentPage : Page.t) : result Element :=
  title <- tocTitle currentPage ;;
  ogTitle <- tocTitle currentPage ;;
  article <- renderNodes currentPage children ;;
  ret (html currentPage title ogTitle article).

End Layout.

(** ** Reading a composed page *)

(** An element and everything below it, in document order. *)
Fixpoint descendants (e : Element) : list Element :=
  e :: match e with
       | Elem _ _ children => flat_map descendants children
       | Fragment children => flat_map descendants children
       | Undefined => []
       | Text _ => []
       end.

Definition hasTag (tag : string) (e : Element) : bool :=
  match e with
  | Elem t _ _ => t =? tag
  | _ => false
  end.

Definition elementsByTagName (tag : string) (e : Element) : list Element :=
  filter (hasTag tag) (descendants e).

Definition childrenOf (e : Element) : list Element :=
  match e with
  | Elem _ _ children => children
  | Fragment children => children
  | Undefined => []
  | Text _ => []
  end.

Definition propsOf (e : Element) : Props :=
  match e with
  | Elem _ props _ => props
  | _ => []
  end.

Fixpoint prop (key : string) (props : Props) : PropValue :=
  match props with
  | [] => PUndefined
  | (k, v) :: rest => if k =? key then v else prop key rest
  end.

(** The children of the page's [head]. *)
Definition documentHead (page : Element) : list Element :=
  match find (hasTag "head") (childrenOf page) with
  | Some h => childrenOf h
  | None => []
  end.

(** The children of each [title] element of the head. *)
Definition headTitle (page : Element) : list (list Element) :=
  map childrenOf (filter (hasTag "title") (documentHead page)).

(** A [meta] element whose attribute [attr] is [value]. *)
Definition isMeta (attr value : string) (e : Element) : bool :=
  hasTag "meta" e &&
  match prop attr (propsOf e) with
  | PString v => v =? value
  | _ => false
  end.

Definition metaTags (attr value : string) (page : Element) : list Element :=
  filter (isMeta attr value) (documentHead page).

(** The [content] of each such [meta] element of the head. *)
Definition metaContents (attr value : string) (page : Element)
  : list PropValue :=
  map (fun m => prop "content" (propsOf m)) (metaTags attr value page).

(** How many elements of the document tree are named [tag]. *)
Fixpoint mdxCount (tag : string) (n : MdxNode) : nat :=
  match n with
  | MdxText _ => 0
  | MdxElement t _ children =>
      (if t =? tag then 1 else 0) + list_sum (map (mdxCount tag) children)
  | MdxCodeBlock _ _ _ => 0
  end.

Definition mdxCountAll (tag : string) (l : list MdxNode) : nat :=
  list_sum (map (mdxCount tag) l).

(** ** A runtime to evaluate with *)

(** Modelled from the spec: the registry of known grammars, which belongs to
    the highlighter package and is not part of this repository's sources.
    The spec names the tags js, ts, jsx and dot. *)
Inductive KnownGrammar : Type := JS | JSX | TS | DOT.

Definition knownLanguage (key : string) : option KnownGrammar :=
  if key =? "JS" then Some JS
  else if key =? "JSX" then Some JSX
  else if key =? "TS" then Some TS
  else if key =? "DOT" then Some DOT
  else None.

(** A highlighter that marks nothing, a host that writes dates as
    YYYY-MM-DD and reports anything else as invalid. *)
Definition isDigit (c : ascii) : bool :=
  let n := nat_of_ascii c in ((48 <=? n) && (n <=? 57))%nat.

Definition isoLocaleDate (s : string) : string :=
  match get 0 s with
  | Some c => if isDigit c then substring 0 10 s else "Invalid Date"
  | None => "Invalid Date"
  end.

#[local] Instance sampleRuntime : Runtime := {
  Grammar := KnownGrammar;
  Language := knownLanguage;
  highlight := fun code _ => ret code;
  toLocaleDateString := isoLocaleDate;
  avatar := "/avatar.jpg"
}.

(** ** The page metadata model and the navigation builder of the spec *)

Inductive TitleError : Type :=
| UnresolvableTitle (url : string).


Record CalendarDate : Type := {
  year : nat;
  month : nat;
  day : nat
}.

Definition digit (c : ascii) : option nat :=
  if isDigit c then Some (nat_of_ascii c - 48) else None.

Fixpoint number (acc : nat) (cs : list ascii) : option nat :=
  match cs with
  | [] => Some acc
  | c :: r =>
      match digit c with
      | Some d => number (10 * acc + d) r
      | None => None
      end
  end.

Definition isLeap (y : nat) : bool :=
  ((y mod 4 =? 0) && (negb (y mod 100 =? 0) || (y mod 400 =? 0)))%nat.

Definition daysInMonth (y m : nat) : nat :=
  match m with
  | 1 | 3 | 5 | 7 | 8 | 10 | 12 => 31
  | 4 | 6 | 9 | 11 => 30
  | 2 => if isLeap y then 29 else 28
  | _ => 0
  end.

(** A [YYYY-MM-DD] string as a calendar date; anything else is malformed. *)
Definition parseCalendarDate (s : string) : option CalendarDate :=
  match list_ascii_of_string s with
  | [y1; y2; y3; y4; "-"%char; m1; m2; "-"%char; d1; d2] =>
      match number 0 [y1; y2; y3; y4], number 0 [m1; m2], number 0 [d1; d2] with
      | Some y, Some m, Some d =>
          if ((1 <=? d) && (d <=? daysInMonth y m))%nat
          then Some {| year := y; month := m; day := d |}
          else None
      | _, _, _ => None
      end
  | _ => None
  end.

(** Modelled from the spec: the page metadata projection of section 4.3
    ([displayDate], [displayDescription]) and the navigation builder
    [buildNav] of section 4.4, neither of which is in this repository's
    sources. An absent or malformed date gives no display date. For the
    sort, an absent date counts as the empty string, which puts it last. *)
Definition displayDate (p : Page.t) : option CalendarDate :=
  match exportsDate p with
  | Some d => parseCalendarDate d
  | None => None
  end.

Definition displayDescription (p : Page.t) : option string :=
  exportsDescription p.

Module NavEntry.
Record t : Type := make {
  url : string;
  displayTitle : TitleError + string;
  displayDate : option CalendarDate;
  displayDescription : option string;
  isCurrent : bool
}.
End NavEntry.








(** ** Reading a document tree and its rendering *)

(** The code blocks of a tree, in document order: language tag and text. *)
Fixpoint codeBlocks (n : MdxNode) : list (option string * string) :=
  match n with
  | MdxText _ => []
  | MdxElement _ _ children => flat_map codeBlocks children
  | MdxCodeBlock lang _ code => [(lang, code)]
  end.

Definition codeBlocksAll (l : list MdxNode) : list (option string * string) :=
  flat_map codeBlocks l.

(** The raw HTML a list of props injects ([dangerouslySetInnerHTML]). *)
Definition rawOfProps (props : Props) : list string :=
  flat_map (fun kv => match snd kv with
                      | PInnerHTML h => [h]
                      | _ => []
                      end) props.

(** All the raw HTML of an element tree, in document order. *)
Definition rawHtml (e : Element) : list string :=
  flat_map (fun d => rawOfProps (propsOf d)) (descendants e).

Definition rawHtmlIn (l : list Element) : list string :=
  flat_map rawHtml l.

(** The raw HTML the author's own props carry. *)
Fixpoint mdxRaw (n : MdxNode) : list string :=
  match n with
  | MdxText _ => []
  | MdxElement _ props children => rawOfProps props ++ flat_map mdxRaw children
  | MdxCodeBlock _ props _ => rawOfProps props
  end.

Definition mdxRawAll (l : list MdxNode) : list string :=
  flat_map mdxRaw l.

(** How many elements named [tag] a list of elements contains. *)
Definition tagsIn (tag : string) (l : list Element) : nat :=
  length (filter (hasTag tag) (flat_map descendants l)).

(** In a list of siblings, every [h1] element has [date] as its next
    sibling. *)
Fixpoint followedBy (date : Element) (siblings : list Element) : Prop :=
  match siblings with
  | [] => True
  | e :: rest =>
      (hasTag "h1" e = true -> hd_error rest = Some date) /\
      followedBy date rest
  end.

(** Throughout an element tree, every [h1] element has [date] as its next
    sibling. *)
Fixpoint headingsDated (date : Element) (e : Element) : Prop :=
  followedBy date (childrenOf e) /\
  match e with
  | Elem _ _ children =>
      fold_right (fun c rest => headingsDated date c /\ rest) True children
  | Fragment children =>
      fold_right (fun c rest => headingsDated date c /\ rest) True children
  | Undefined => True
  | Text _ => True
  end.

Definition allDated (date : Element) (l : list Element) : Prop :=
  fold_right (fun c rest => headingsDated date c /\ rest) True l.

(** Strings of ASCII characters, lower-case letters, and
    [String.prototype.toLowerCase] on such strings: two tags are the same
    up to case when lower-casing makes them equal. *)
Definition isAsciiString (s : string) : bool :=
  forallb (fun c => (nat_of_ascii c <? 128)%nat) (list_ascii_of_string s).

Definition isLowerAscii (c : ascii) : bool :=
  let n := nat_of_ascii c in ((97 <=? n) && (n <=? 122))%nat.

Definition noLowerCase (s : string) : bool :=
  forallb (fun c => negb (isLowerAscii c)) (list_ascii_of_string s).

Definition lowerAscii (c : ascii) : ascii :=
  let n := nat_of_ascii c in
  if ((65 <=? n) && (n <=? 90))%nat then ascii_of_nat (n + 32) else c.

Fixpoint toLowerCase (s : string) : string :=
  match s with
  | EmptyString => EmptyString
  | String c r => String (lowerAscii c) (toLowerCase r)
  end.

(** A node as an element, tag for tag; a code block has no such reading. *)
Fixpoint embed (n : MdxNode) : Element :=
  match n with
  | MdxText s => Text s
  | MdxElement tag props children => Elem tag props (map embed children)
  | MdxCodeBlock _ _ _ => Undefined
  end.

(** The exception a computation ends with, if it does. *)
Definition thrown {A : Type} (r : result A) : option JsError :=
  match r with
  | inl e => Some e
  | inr _ => None
  end.

Section Highlighting.

Context {R : Runtime}.

(** What the highlighter answers for one code block. *)
Definition highlighted (block : option string * string) : result string :=
  highlight (snd block) (grammarOf (fst block)).

(** The first exception the highlighter throws on a list of code blocks. *)
Fixpoint firstThrown (blocks : list (option string * string))
  : option JsError :=
  match blocks with
  | [] => None
  | b :: rest =>
      match highlighted b with
      | inl e => Some e
      | inr _ => firstThrown rest
      end
  end.

End Highlighting.

(** A post with code in it. *)
Definition withCode : list MdxNode :=
  [ MdxElement "h1" [] [MdxText "Intro"];
    MdxCodeBlock (Some "jsx") [] "<App />";
    MdxElement "blockquote" []
      [ MdxElement "p" [] [MdxText "Quoted."];
        MdxCodeBlock None [] "let x = 1;" ] ].

(** The titled post under another name, with another exported title and a
    longer outline that starts with the same entry. *)
Definition renamedPage : Page.t :=
  {| Page.url := "/blog/titled.html";
     Page.name := "renamed";
     Page.exports :=
       Some {| Exports.title := None;
               Exports.description := Some "About this post";
               Exports.date := Some "2025-07-26" |};
     Page.tableOfContents :=
       Some [TocNode.make 1 "Intro" []; TocNode.make 1 "Appendix" []] |}.

(** A post with neither a top heading nor code. *)
Definition plainText : list MdxNode :=
  [ MdxElement "h2" [] [MdxText "Details"];
    MdxElement "p" [("className", PString "lead")]
      [MdxText "Some "; MdxElement "em" [] [MdxText "text"]; MdxText "."] ].

(** ** Sample documents *)

Definition introOutline : list TocNode.t :=
  [TocNode.make 1 "Intro" [TocNode.make 2 "Details" []]].

(** A post that declares a title, a description and a date. *)
Definition titledPage : Page.t :=
  {| Page.url := "/blog/titled.html";
     Page.name := "titled";
     Page.exports :=
       Some {| Exports.title := Some "Custom";
               Exports.description := Some "About this post";
               Exports.date := Some "2025-07-26" |};
     Page.tableOfContents := Some introOutline |}.

(** A post that declares nothing. *)
Definition barePage : Page.t :=
  {| Page.url := "/blog/bare.html";
     Page.name := "bare";
     Page.exports := None;
     Page.tableOfContents := Some introOutline |}.


Definition oneHeading : list MdxNode :=
  [ MdxElement "h1" [] [MdxText "Intro"];
    MdxElement "p" [] [MdxText "Some text."];
    MdxElement "h2" [] [MdxText "Details"] ].

Definition twoHeadings : list MdxNode :=
  [ MdxElement "h1" [] [MdxText "First"];
    MdxElement "p" [] [MdxText "Some text."];
    MdxElement "h1" [] [MdxText "Second"] ].



(** * Properties *)

(** ** The definitions on small inputs *)

Example toUpperCase_jsx : toUpperCase "jsx" = "JSX".
Proof. reflexivity. Qed.

Example languageKey_dot : languageKey (Some "dot") = "DOT".
Proof. reflexivity. Qed.

Example languageKey_absent : languageKey None = "JS".
Proof. reflexivity. Qed.

Example jsPlus_absent : jsPlus None "T00:00" = "undefinedT00:00".
Proof. reflexivity. Qed.

Example jsPlus_date : jsPlus (Some "2025-07-26") "T00:00" = "2025-07-26T00:00".
Proof. reflexivity. Qed.

Example includes_inner : includes "reading 'title'" "title" = true.
Proof. reflexivity. Qed.

Example tocTitle_titled : tocTitle titledPage = inr (Some "Intro").
Proof. reflexivity. Qed.

Example parseCalendarDate_leap :
  parseCalendarDate "2024-02-29" =
  Some {| year := 2024; month := 2; day := 29 |}.
Proof. reflexivity. Qed.

Example parseCalendarDate_malformed : parseCalendarDate "2025-02-29" = None.
Proof. reflexivity. Qed.

Example codeBlock_jsx :
  CodeBlock (Some "jsx") [] "<App />" =
  inr (Elem "pre" [("lang", PString "jsx")]
         [Elem "code" [("dangerouslySetInnerHTML", PInnerHTML "<App />")] []]).
Proof. reflexivity. Qed.

(** ** The error monad *)

Lemma bind_inr {A B : Type} (m : result A) (k : A -> result B) (b : B) :
  bind m k = inr b -> exists a, m = inr a /\ k a = inr b.
Proof.
  destruct m as [e | a]; simpl; intros H; [discriminate | eauto].
Qed.

Tactic Notation "invert_bind" hyp(H) "as" ident(a) ident(Ha) :=
  apply bind_inr in H; destruct H as (a & Ha & H).

(** ** Induction on document trees *)

Section MdxInduction.

Variable P : MdxNode -> Prop.

Hypothesis text_case : forall s, P (MdxText s).
Hypothesis element_case :
  forall tag props children,
    Forall P children -> P (MdxElement tag props children).
Hypothesis code_case : forall lang props code, P (MdxCodeBlock lang props code).

Fixpoint MdxNode_forall_ind (n : MdxNode) : P n :=
  match n with
  | MdxText s => text_case s
  | MdxElement tag props children =>
      element_case tag props
        ((fix all (l : list MdxNode) : Forall P l :=
            match l with
            | [] => Forall_nil P
            | x :: r => Forall_cons x (MdxNode_forall_ind x) (all r)
            end) children)
  | MdxCodeBlock lang props code => code_case lang props code
  end.

End MdxInduction.

(** ** Rendering the document tree *)

Section Rendering.

Context {R : Runtime}.

Variable currentPage : Page.t.

Lemma renderNode_element tag props children :
  renderNode currentPage (MdxElement tag props children) =
  (children' <- renderNodes currentPage children ;;
   ret (if tag =? "h1" then h1 currentPage props children'
        else Elem tag props children')).
Proof.
  reflexivity.
Qed.

Definition timesIn (l : list Element) : nat :=
  length (filter (hasTag "time") (flat_map descendants l)).

Lemma timesIn_cons e l :
  timesIn (e :: l) = length (elementsByTagName "time" e) + timesIn l.
Proof.
  unfold timesIn, elementsByTagName. simpl flat_map.
  now rewrite filter_app, length_app.
Qed.

Lemma times_Elem tag props children :
  length (elementsByTagName "time" (Elem tag props children)) =
  (if tag =? "time" then 1 else 0) + timesIn children.
Proof.
  unfold elementsByTagName, timesIn. simpl.
  destruct (tag =? "time"); reflexivity.
Qed.

Lemma times_Fragment children :
  length (elementsByTagName "time" (Fragment children)) = timesIn children.
Proof. reflexivity. Qed.

Lemma times_timeElement :
  length (elementsByTagName "time" (timeElement currentPage)) = 1.
Proof. reflexivity. Qed.

(** Every [h1] of the tree contributes one [time] element, and so does
    every [time] element the author wrote; nothing else does. *)
Lemma renderNode_times n :
  forall e,
    renderNode currentPage n = inr e ->
    length (elementsByTagName "time" e) = mdxCount "h1" n + mdxCount "time" n.
Proof.
  induction n as [s | tag props children IH | lang props code]
    using MdxNode_forall_ind; intros e He.
  - inversion He; reflexivity.
  - rewrite renderNode_element in He. invert_bind He as a Ha.
    assert (Hl : timesIn a =
                 mdxCountAll "h1" children + mdxCountAll "time" children).
    { clear He. revert a Ha.
      induction IH as [| x r Hx _ IHr]; simpl; intros a Ha.
      - inversion Ha; reflexivity.
      - invert_bind Ha as x' Hx'. invert_bind Ha as r' Hr'.
        inversion Ha; subst.
        rewrite timesIn_cons, (Hx _ Hx'), (IHr _ Hr').
        unfold mdxCountAll; simpl. lia. }
    inversion He; subst; clear He.
    cbn [mdxCount]. fold (mdxCountAll "h1" children).
    fold (mdxCountAll "time" children).
    destruct (String.eqb_spec tag "h1") as [-> | Hneq].
    + unfold h1. rewrite times_Fragment, timesIn_cons, times_Elem.
      rewrite timesIn_cons, times_timeElement. unfold timesIn at 2.
      simpl. lia.
    + rewrite times_Elem. lia.
  - unfold renderNode, CodeBlock, codeElement in He.
    invert_bind He as c Hc. invert_bind Hc as html Hhtml.
    inversion Hc; subst. inversion He; reflexivity.
Qed.

Lemma renderNodes_times l :
  forall out,
    renderNodes currentPage l = inr out ->
    timesIn out = mdxCountAll "h1" l + mdxCountAll "time" l.
Proof.
  induction l as [| x r IH]; simpl; intros out H.
  - inversion H; reflexivity.
  - invert_bind H as x' Hx'. invert_bind H as r' Hr'.
    inversion H; subst.
    rewrite timesIn_cons, (renderNode_times _ Hx'), (IH _ Hr').
    unfold mdxCountAll; simpl. lia.
Qed.

End Rendering.

(** ** The composed page *)

Section Composition.

Context {R : Runtime}.

Lemma Layout_inr children pages currentPage out :
  Layout children pages currentPage = inr out ->
  exists title article,
    tocTitle currentPage = inr title /\
    renderNodes currentPage children = inr article /\
    out = html currentPage title title article.
Proof.
  unfold Layout. intros H.
  invert_bind H as title Ht. invert_bind H as ogTitle Hog.
  invert_bind H as article Ha. inversion H; subst.
  rewrite Ht in Hog. inversion Hog; subst.
  now exists ogTitle, article.
Qed.


Lemma html_times currentPage title ogTitle article :
  length (elementsByTagName "time" (html currentPage title ogTitle article)) =
  timesIn article.
Proof.
  unfold html. repeat rewrite ?times_Elem, ?timesIn_cons.
  generalize (timesIn article); intros k.
  destruct title; simpl; change (timesIn []) with 0; lia.
Qed.

Lemma html_head currentPage title ogTitle article :
  headTitle (html currentPage title ogTitle article) = [[childOf title]] /\
  metaContents "property" "og:title" (html currentPage title ogTitle article) =
    [propOf ogTitle] /\
  metaContents "name" "description" (html currentPage title ogTitle article) =
    [propOf (exportsDescription currentPage)] /\
  metaContents "property" "og:description"
    (html currentPage title ogTitle article) =
    [propOf (exportsDescription currentPage)].
Proof. repeat split. Qed.

(** Descendants of a child are descendants of the parent. *)
Lemma descendants_child x c e :
  In c (childrenOf e) -> In x (descendants c) -> In x (descendants e).
Proof.
  intros Hc Hx.
  destruct e as [| s | tag props children | children]; simpl in *;
    try contradiction; right; apply in_flat_map; eauto.
Qed.

Lemma html_article currentPage title ogTitle article x c :
  In c article -> In x (descendants c) ->
  In x (descendants (html currentPage title ogTitle article)).
Proof.
  intros Hc Hx.
  apply descendants_child with
    (c := Elem "body" []
            [ Elem "header" []
                [ Elem "img"
                    [("src", PString avatar);
                     ("className", PString "avatar");
                     ("alt", PString "")] [];
                  Elem "a" [("href", PString "/index.html")]
                    [Text "Devon's Blog"] ];
              Elem "main" [] [ Elem "article" [] article ] ]).
  { simpl. auto. }
  apply descendants_child with (c := Elem "main" [] [Elem "article" [] article]).
  { simpl. auto. }
  apply descendants_child with (c := Elem "article" [] article).
  { simpl. auto. }
  now apply descendants_child with (c := c).
Qed.

(** A tree with an [h1] in it renders with the page's date element in it. *)
Lemma renderNode_date currentPage n :
  forall e,
    renderNode currentPage n = inr e ->
    0 < mdxCount "h1" n ->
    In (timeElement currentPage) (descendants e).
Proof.
  induction n as [s | tag props children IH | lang props code]
    using MdxNode_forall_ind; intros e He Hpos.
  - simpl in Hpos. lia.
  - rewrite renderNode_element in He. invert_bind He as out Hout.
    inversion He; subst; clear He.
    destruct (String.eqb_spec tag "h1") as [-> | Hneq].
    + unfold h1.
      apply descendants_child with (c := timeElement currentPage);
        simpl; auto.
    + cbn [mdxCount] in Hpos.
      destruct (tag =? "h1") eqn:E.
      { apply String.eqb_eq in E. contradiction. }
      simpl in Hpos. clear E Hneq.
      simpl. right.
      revert out Hout Hpos.
      induction IH as [| x r Hx _ IHr]; simpl; intros out Hout Hpos.
      * lia.
      * invert_bind Hout as x' Hx'. invert_bind Hout as r' Hr'.
        inversion Hout; subst. simpl.
        apply in_or_app.
        destruct (Nat.eq_dec (mdxCount "h1" x) 0) as [Hz | Hnz].
        -- right. apply IHr; [assumption | lia].
        -- left. apply Hx; [assumption | lia].
  - simpl in Hpos. lia.
Qed.

Lemma renderNodes_date currentPage l :
  forall out,
    renderNodes currentPage l = inr out ->
    0 < mdxCountAll "h1" l ->
    exists c, In c out /\ In (timeElement currentPage) (descendants c).
Proof.
  induction l as [| x r IH]; unfold mdxCountAll; simpl; intros out H Hpos.
  - lia.
  - invert_bind H as x' Hx'. invert_bind H as r' Hr'. inversion H; subst.
    destruct (Nat.eq_dec (mdxCount "h1" x) 0) as [Hz | Hnz].
    + rewrite Hz in Hpos. destruct (IH _ Hr' Hpos) as (c & Hc & Hin).
      exists c. simpl. auto.
    + exists x'. split; [now left |].
      apply renderNode_date with (n := x); [assumption | lia].
Qed.

End Composition.

(** ** The page's title *)

Lemma Layout_ok {R : Runtime} children pages currentPage title article :
  tocTitle currentPage = inr title ->
  renderNodes currentPage children = inr article ->
  Layout children pages currentPage =
  inr (html currentPage title title article).
Proof. unfold Layout. now intros -> ->. Qed.






(** With the outline absent rather than empty, the optional chain stops:
    nothing is thrown and the title is left empty. *)
Lemma Layout_absent_outline
    {R : Runtime} children pages currentPage article :
  Page.tableOfContents currentPage = None ->
  renderNodes currentPage children = inr article ->
  exists out,
    Layout children pages currentPage = inr out /\
    headTitle out = [[Undefined]] /\
    metaContents "property" "og:title" out = [PUndefined].
Proof.
  intros Htoc Harticle.
  assert (Ht : tocTitle currentPage = inr None).
  { unfold tocTitle. now rewrite Htoc. }
  eexists. split; [exact (Layout_ok children pages _ Ht Harticle) |].
  split; reflexivity.
Qed.


(** ** Description tags *)

(** C5, as the spec states it, fails: a post with no description still has
    both description tags in its head. *)
Lemma C5_description_tags_are_present :
  exportsDescription barePage = None /\
  exists out,
    Layout oneHeading [] barePage = inr out /\
    metaTags "name" "description" out =
      [Elem "meta" [("name", PString "description"); ("content", PUndefined)] []] /\
    metaTags "property" "og:description" out =
      [Elem "meta"
         [("property", PString "og:description"); ("content", PUndefined)] []].
Proof.
  split; [reflexivity |].
  eexists. split; [reflexivity |]. split; reflexivity.
Qed.

(** C5, amended: for every document with no [exports.description], the head
    of the composed page has exactly one description tag and one
    social-card description tag, each with its content missing. *)
Theorem C5_description_tags_without_content
    {R : Runtime} children pages currentPage title article :
  exportsDescription currentPage = None ->
  tocTitle currentPage = inr title ->
  renderNodes currentPage children = inr article ->
  exists out,
    Layout children pages currentPage = inr out /\
    metaContents "name" "description" out = [PUndefined] /\
    metaContents "property" "og:description" out = [PUndefined].
Proof.
  intros Hdesc Ht Harticle.
  eexists. split; [exact (Layout_ok children pages _ Ht Harticle) |].
  destruct (html_head currentPage title title article) as (_ & _ & Hd & Hog).
  rewrite Hd, Hog, Hdesc. split; reflexivity.
Qed.

(** The amended C5 on the post that declares nothing. *)
Lemma C5_description_tags_without_content_witness :
  exportsDescription barePage = None /\
  tocTitle barePage = inr (Some "Intro") /\
  renderNodes barePage oneHeading =
    inr [ Fragment [Elem "h1" [] [Text "Intro"]; timeElement barePage];
          Elem "p" [] [Text "Some text."];
          Elem "h2" [] [Text "Details"] ] /\
  exists out,
    Layout oneHeading [] barePage = inr out /\
    metaContents "name" "description" out = [PUndefined] /\
    metaContents "property" "og:description" out = [PUndefined].
Proof.
  split; [reflexivity |]. split; [reflexivity |]. split; [reflexivity |].
  apply (@C5_description_tags_without_content
           sampleRuntime oneHeading [] barePage (Some "Intro")
           [ Fragment [Elem "h1" [] [Text "Intro"]; timeElement barePage];
             Elem "p" [] [Text "Some text."];
             Elem "h2" [] [Text "Details"] ]);
    reflexivity.
Defined.

(** ** The date element *)

Lemma Layout_times {R : Runtime} children pages currentPage title article :
  tocTitle currentPage = inr title ->
  renderNodes currentPage children = inr article ->
  exists out,
    Layout children pages currentPage = inr out /\
    length (elementsByTagName "time" out) =
    mdxCountAll "h1" children + mdxCountAll "time" children.
Proof.
  intros Ht Harticle.
  eexists. split; [exact (Layout_ok children pages _ Ht Harticle) |].
  rewrite html_times. exact (renderNodes_times currentPage children Harticle).
Qed.

(** C4, as the spec states it, fails: a post with no date has a date element
    after its heading. *)
Lemma C4_undated_post_has_date_element :
  exportsDate barePage = None /\
  exists out,
    Layout oneHeading [] barePage = inr out /\
    elementsByTagName "time" out =
      [Elem "time" [("dateTime", PUndefined)] [Text "Invalid Date"]].
Proof.
  split; [reflexivity |].
  eexists. split; reflexivity.
Qed.

(** C8, as the spec states it, fails: with two [h1] headings in the tree,
    the second one is followed by a date element as well. *)
Lemma C8_second_heading_is_dated_too :
  renderNode titledPage (MdxElement "h1" [] [MdxText "Second"]) =
    inr (Fragment [Elem "h1" [] [Text "Second"]; timeElement titledPage]) /\
  exists out,
    Layout twoHeadings [] titledPage = inr out /\
    length (elementsByTagName "time" out) = 2.
Proof.
  split; [reflexivity |].
  eexists. split; reflexivity.
Qed.

(** C8, amended: during composition every [h1] element of the document tree,
    wherever it stands, is rendered as the heading followed by the date
    element; elements of any other name are rendered without one. The
    composed page has one date element per [h1] of the tree, besides the
    [time] elements the tree itself contains. *)
Theorem C8_every_h1_is_dated
    {R : Runtime} children pages currentPage title article :
  tocTitle currentPage = inr title ->
  renderNodes currentPage children = inr article ->
  (exists out,
     Layout children pages currentPage = inr out /\
     length (elementsByTagName "time" out) =
     mdxCountAll "h1" children + mdxCountAll "time" children) /\
  (forall tag props nodes rendered,
     renderNodes currentPage nodes = inr rendered ->
     renderNode currentPage (MdxElement tag props nodes) =
     inr (if tag =? "h1"
          then Fragment [Elem "h1" props rendered; timeElement currentPage]
          else Elem tag props rendered)).
Proof.
  intros Ht Harticle. split.
  - exact (Layout_times children pages _ Ht Harticle).
  - intros tag props nodes rendered Hnodes.
    rewrite renderNode_element, Hnodes. reflexivity.
Qed.

(** The amended C8 on a tree with two [h1] headings. *)
Lemma C8_every_h1_is_dated_witness :
  tocTitle titledPage = inr (Some "Intro") /\
  renderNodes titledPage twoHeadings =
    inr [ Fragment [Elem "h1" [] [Text "First"]; timeElement titledPage];
          Elem "p" [] [Text "Some text."];
          Fragment [Elem "h1" [] [Text "Second"]; timeElement titledPage] ] /\
  (exists out,
     Layout twoHeadings [] titledPage = inr out /\
     length (elementsByTagName "time" out) =
     mdxCountAll "h1" twoHeadings + mdxCountAll "time" twoHeadings) /\
  (forall tag props nodes rendered,
     renderNodes titledPage nodes = inr rendered ->
     renderNode titledPage (MdxElement tag props nodes) =
     inr (if tag =? "h1"
          then Fragment [Elem "h1" props rendered; timeElement titledPage]
          else Elem tag props rendered)).
Proof.
  split; [reflexivity |]. split; [reflexivity |].
  apply (@C8_every_h1_is_dated
           sampleRuntime twoHeadings [] titledPage (Some "Intro")
           [ Fragment [Elem "h1" [] [Text "First"]; timeElement titledPage];
             Elem "p" [] [Text "Some text."];
             Fragment [Elem "h1" [] [Text "Second"]; timeElement titledPage] ]);
    reflexivity.
Defined.

(** ** The pages collection *)

(** C9: the composed page does not depend on the pages collection. For any
    two values of [pages], with the same current page and the same children,
    [Layout] gives the same result. *)
Theorem C9_pages_is_not_used
    {R : Runtime} children (pages1 pages2 : list Page.t) currentPage :
  Layout children pages1 currentPage = Layout children pages2 currentPage.
Proof. reflexivity. Qed.

(** ** The grammar of a code block *)

(** C3, as the spec states it, fails: a tag the registry does not know is
    looked up as it is, and what the highlighter receives is undefined, not
    the default grammar. *)
Lemma C3_unknown_tag_is_not_defaulted :
  knownLanguage (toUpperCase "nonexistent-lang") = None /\
  languageKey (Some "nonexistent-lang") = "NONEXISTENT-LANG" /\
  grammarOf (Some "nonexistent-lang") = None /\
  grammarOf None = Some JS.
Proof. repeat split. Qed.

(** C3, amended: if the language tag is absent or the empty string,
    highlighting resolves to the registry's entry for JS, the default
    grammar; any other tag resolves to the registry's entry for the tag in
    upper case, whether the registry has one or not. *)
Theorem C3_grammar_resolution {R : Runtime} :
  grammarOf None = Language "JS" /\
  grammarOf (Some "") = Language "JS" /\
  forall c rest,
    grammarOf (Some (String c rest)) = Language (toUpperCase (String c rest)).
Proof. repeat split. Qed.

(** C10: a code block whose language tag is the empty string is treated
    like one with no language tag: both resolve to the registry's JS entry,
    and the highlighted [code] element is the same. *)
Theorem C10_empty_tag_is_absent_tag {R : Runtime} (code : string) :
  grammarOf (Some "") = Language "JS" /\
  grammarOf None = Language "JS" /\
  codeElement (Some "") code = codeElement None code.
Proof. repeat split. Qed.

(** ** The navigation list *)

(** The order on date strings is the lexical one, which on [YYYY-MM-DD]
    strings is the order of the dates. *)
Section DateOrder.








End DateOrder.

Section Sorting.





End Sorting.



(** * Further properties of the component *)

(** ** The registry key *)

Lemma upperAscii_idempotent (c : ascii) :
  upperAscii (upperAscii c) = upperAscii c.
Proof. destruct c as [[] [] [] [] [] [] [] []]; reflexivity. Qed.

Lemma toUpperCase_idempotent (s : string) :
  toUpperCase (toUpperCase s) = toUpperCase s.
Proof.
  induction s as [| c r IH]; simpl; [reflexivity |].
  now rewrite upperAscii_idempotent, IH.
Qed.

Lemma toUpperCase_length (s : string) :
  String.length (toUpperCase s) = String.length s.
Proof. induction s as [| c r IH]; simpl; congruence. Qed.

Lemma upperAscii_not_lower (c : ascii) : isLowerAscii (upperAscii c) = false.
Proof. destruct c as [[] [] [] [] [] [] [] []]; reflexivity. Qed.

Lemma upperAscii_ascii (c : ascii) :
  (nat_of_ascii c <? 128)%nat = true ->
  (nat_of_ascii (upperAscii c) <? 128)%nat = true.
Proof.
  destruct c as [[] [] [] [] [] [] [] []]; intros H;
    solve [reflexivity | discriminate H].
Qed.

Lemma lower_of_upperAscii (c : ascii) :
  lowerAscii (upperAscii c) = lowerAscii c.
Proof. destruct c as [[] [] [] [] [] [] [] []]; reflexivity. Qed.

Lemma upper_of_lowerAscii (c : ascii) :
  upperAscii (lowerAscii c) = upperAscii c.
Proof. destruct c as [[] [] [] [] [] [] [] []]; reflexivity. Qed.

Lemma toUpperCase_no_lower (s : string) : noLowerCase (toUpperCase s) = true.
Proof.
  unfold noLowerCase.
  induction s as [| c r IH]; simpl; [reflexivity |].
  now rewrite upperAscii_not_lower, IH.
Qed.

Lemma toUpperCase_ascii (s : string) :
  isAsciiString s = true -> isAsciiString (toUpperCase s) = true.
Proof.
  unfold isAsciiString.
  induction s as [| c r IH]; simpl; [reflexivity |].
  intros H. apply andb_prop in H. destruct H as [Hc Hr].
  now rewrite (upperAscii_ascii c Hc), (IH Hr).
Qed.

Lemma lower_of_toUpperCase (s : string) :
  toLowerCase (toUpperCase s) = toLowerCase s.
Proof.
  induction s as [| c r IH]; simpl; [reflexivity |].
  now rewrite lower_of_upperAscii, IH.
Qed.

Lemma upper_of_toLowerCase (s : string) :
  toUpperCase (toLowerCase s) = toUpperCase s.
Proof.
  induction s as [| c r IH]; simpl; [reflexivity |].
  now rewrite upper_of_lowerAscii, IH.
Qed.

Lemma same_up_to_case (a b : string) :
  toLowerCase a = toLowerCase b <-> toUpperCase a = toUpperCase b.
Proof.
  split; intros H.
  - now rewrite <- (upper_of_toLowerCase a), H, upper_of_toLowerCase.
  - now rewrite <- (lower_of_toUpperCase a), H, lower_of_toUpperCase.
Qed.

Lemma languageKey_tag (tag : string) :
  tag <> "" -> languageKey (Some tag) = toUpperCase tag.
Proof. destruct tag as [| c r]; [congruence | reflexivity]. Qed.

(** X1: for language tags of ASCII characters, the registry key of a code
    block is never empty, is itself of ASCII characters, has no lower-case
    letter and has the tag's length (2 for the empty tag), so a registry
    entry under a name with a lower-case letter is never selected. Matching
    is case-insensitive and no more than that: two tags that are the same
    up to case give the same [code] element, and two non-empty tags with
    the same key are the same up to case. *)
Theorem languageKey_is_upper_case
    {R : Runtime} (tag other code : string) :
  isAsciiString tag = true ->
  isAsciiString other = true ->
  languageKey (Some tag) <> "" /\
  isAsciiString (languageKey (Some tag)) = true /\
  noLowerCase (languageKey (Some tag)) = true /\
  String.length (languageKey (Some tag)) =
    (if tag =? "" then 2 else String.length tag) /\
  (toLowerCase tag = toLowerCase other ->
   languageKey (Some tag) = languageKey (Some other) /\
   codeElement (Some tag) code = codeElement (Some other) code) /\
  (tag <> "" -> other <> "" ->
   languageKey (Some tag) = languageKey (Some other) ->
   toLowerCase tag = toLowerCase other).
Proof.
  intros Htag Hother.
  split; [| split; [| split; [| split; [| split]]]].
  - destruct tag as [| c r]; simpl; discriminate.
  - destruct tag as [| c r]; [reflexivity |].
    rewrite languageKey_tag by discriminate. now apply toUpperCase_ascii.
  - destruct tag as [| c r]; [reflexivity |].
    rewrite languageKey_tag by discriminate. apply toUpperCase_no_lower.
  - destruct tag as [| c r]; simpl; [reflexivity |].
    now rewrite toUpperCase_length.
  - intros Hsame. apply same_up_to_case in Hsame.
    assert (Hkey : languageKey (Some tag) = languageKey (Some other)).
    { unfold languageKey. simpl. now rewrite Hsame. }
    split; [exact Hkey |].
    unfold codeElement, grammarOf. now rewrite Hkey.
  - intros Hne Hne' Hkey.
    rewrite !languageKey_tag in Hkey by assumption.
    now apply same_up_to_case.
Qed.

(** The key of the tags jsx and JSX. *)
Lemma languageKey_is_upper_case_witness :
  isAsciiString "jsx" = true /\
  isAsciiString "JSX" = true /\
  languageKey (Some "jsx") <> "" /\
  isAsciiString (languageKey (Some "jsx")) = true /\
  noLowerCase (languageKey (Some "jsx")) = true /\
  String.length (languageKey (Some "jsx")) =
    (if "jsx" =? "" then 2 else String.length "jsx") /\
  (toLowerCase "jsx" = toLowerCase "JSX" ->
   languageKey (Some "jsx") = languageKey (Some "JSX") /\
   codeElement (Some "jsx") "<App />" = codeElement (Some "JSX") "<App />") /\
  ("jsx" <> "" -> "JSX" <> "" ->
   languageKey (Some "jsx") = languageKey (Some "JSX") ->
   toLowerCase "jsx" = toLowerCase "JSX").
Proof.
  split; [reflexivity |]. split; [reflexivity |].
  apply (@languageKey_is_upper_case sampleRuntime "jsx" "JSX" "<App />");
    reflexivity.
Defined.

(** ** Where exceptions come from *)

Lemma thrown_bind {A B : Type} (m : result A) (k : A -> result B) :
  thrown (bind m k) =
  match m with
  | inl e => Some e
  | inr a => thrown (k a)
  end.
Proof. destruct m; reflexivity. Qed.

Section Exceptions.

Context {R : Runtime}.

Variable currentPage : Page.t.

Lemma firstThrown_app (a b : list (option string * string)) :
  firstThrown (a ++ b) =
  match firstThrown a with
  | Some e => Some e
  | None => firstThrown b
  end.
Proof.
  induction a as [| x r IH]; simpl; [reflexivity |].
  destruct (highlighted x); [reflexivity | exact IH].
Qed.

Lemma renderNode_thrown (n : MdxNode) :
  thrown (renderNode currentPage n) = firstThrown (codeBlocks n).
Proof.
  induction n as [s | tag props children IH | lang props code]
    using MdxNode_forall_ind.
  - reflexivity.
  - rewrite renderNode_element, thrown_bind.
    assert (Hl : thrown (renderNodes currentPage children) =
                 firstThrown (codeBlocksAll children)).
    { induction IH as [| x r Hx _ IHr]; simpl; [reflexivity |].
      rewrite thrown_bind, firstThrown_app, <- Hx.
      destruct (renderNode currentPage x) as [e | x']; [reflexivity |].
      rewrite thrown_bind. simpl.
      destruct (renderNodes currentPage r) as [e | r']; exact IHr. }
    cbn [codeBlocks]. fold (codeBlocksAll children). rewrite <- Hl.
    destruct (renderNodes currentPage children); reflexivity.
  - unfold renderNode, CodeBlock, codeElement. simpl.
    unfold highlighted. simpl.
    destruct (highlight code (grammarOf lang)); reflexivity.
Qed.

Lemma renderNodes_thrown (l : list MdxNode) :
  thrown (renderNodes currentPage l) = firstThrown (codeBlocksAll l).
Proof.
  induction l as [| x r IH]; simpl; [reflexivity |].
  rewrite thrown_bind, firstThrown_app, <- renderNode_thrown.
  destruct (renderNode currentPage x) as [e | x']; [reflexivity |].
  rewrite thrown_bind. simpl.
  destruct (renderNodes currentPage r) as [e | r']; exact IH.
Qed.

End Exceptions.

(** X2: [Layout] throws in two cases only. With an empty outline it throws the
    TypeError of the title read, whatever the tree is. Otherwise it throws
    what the highlighter throws on the first code block of the tree, in
    document order, that makes it throw; if there is none, a page is
    returned. *)
Theorem Layout_thrown
    {R : Runtime} (children : list MdxNode) (pages : list Page.t)
    (currentPage : Page.t) :
  thrown (Layout children pages currentPage) =
  match Page.tableOfContents currentPage with
  | Some [] => Some readTitleOfUndefined
  | _ => firstThrown (codeBlocksAll children)
  end.
Proof.
  unfold Layout. rewrite thrown_bind. unfold tocTitle.
  destruct (Page.tableOfContents currentPage) as [[| entry rest] |]; simpl;
    try reflexivity;
    rewrite thrown_bind, <- (renderNodes_thrown currentPage children);
    destruct (renderNodes currentPage children); reflexivity.
Qed.

(** ** What the tree walk adds and keeps *)

Section TreeWalk.

Context {R : Runtime}.

Variable currentPage : Page.t.

Lemma tagsIn_cons tag e l :
  tagsIn tag (e :: l) = length (elementsByTagName tag e) + tagsIn tag l.
Proof.
  unfold tagsIn, elementsByTagName. simpl flat_map.
  now rewrite filter_app, length_app.
Qed.

Lemma tags_Elem tag t props children :
  length (elementsByTagName tag (Elem t props children)) =
  (if t =? tag then 1 else 0) + tagsIn tag children.
Proof.
  unfold elementsByTagName, tagsIn. simpl.
  destruct (t =? tag); reflexivity.
Qed.

Lemma tags_timeElement tag :
  length (elementsByTagName tag (timeElement currentPage)) =
  if tag =? "time" then 1 else 0.
Proof.
  unfold timeElement. rewrite tags_Elem, tagsIn_cons.
  rewrite (String.eqb_sym "time" tag).
  destruct (tag =? "time"); reflexivity.
Qed.

(** What rendering adds to the elements named [tag]: a [time] per [h1], a
    [pre] and a [code] per code block. *)
Definition added (tag : string) (headings blocks : nat) : nat :=
  (if tag =? "time" then headings else 0) +
  (if (tag =? "pre") || (tag =? "code") then blocks else 0).

Lemma added_plus tag h1 b1 h2 b2 :
  added tag (h1 + h2) (b1 + b2) = added tag h1 b1 + added tag h2 b2.
Proof.
  unfold added.
  destruct (tag =? "time"), ((tag =? "pre") || (tag =? "code")); lia.
Qed.

Lemma renderNode_tags tag n :
  forall e,
    renderNode currentPage n = inr e ->
    length (elementsByTagName tag e) =
    mdxCount tag n + added tag (mdxCount "h1" n) (length (codeBlocks n)).
Proof.
  induction n as [s | t props children IH | lang props code]
    using MdxNode_forall_ind; intros e He.
  - inversion He; subst. unfold added.
    destruct (tag =? "time"), ((tag =? "pre") || (tag =? "code"));
      reflexivity.
  - rewrite renderNode_element in He. invert_bind He as a Ha.
    assert (Hl : tagsIn tag a =
                 mdxCountAll tag children +
                 added tag (mdxCountAll "h1" children)
                   (length (codeBlocksAll children))).
    { clear He. revert a Ha.
      induction IH as [| x r Hx _ IHr]; simpl; intros a Ha.
      - inversion Ha; subst. unfold added.
        destruct (tag =? "time"), ((tag =? "pre") || (tag =? "code"));
          reflexivity.
      - invert_bind Ha as x' Hx'. invert_bind Ha as r' Hr'.
        inversion Ha; subst.
        rewrite tagsIn_cons, (Hx _ Hx'), (IHr _ Hr').
        unfold mdxCountAll, codeBlocksAll; simpl.
        rewrite length_app, added_plus. lia. }
    inversion He; subst; clear He.
    cbn [mdxCount codeBlocks]. fold (mdxCountAll tag children).
    fold (mdxCountAll "h1" children). fold (codeBlocksAll children).
    destruct (String.eqb_spec t "h1") as [-> | Hneq].
    + unfold h1. change (length (elementsByTagName tag (Fragment ?l)))
        with (tagsIn tag l).
      rewrite tagsIn_cons, tags_Elem, tagsIn_cons, tags_timeElement, Hl.
      change (tagsIn tag []) with 0.
      change (1 + mdxCountAll "h1" children)
        with (S (mdxCountAll "h1" children)).
      unfold added.
      destruct (tag =? "time"), ((tag =? "pre") || (tag =? "code")); lia.
    + rewrite tags_Elem, Hl. simpl. lia.
  - unfold renderNode, CodeBlock, codeElement in He.
    invert_bind He as c Hc. invert_bind Hc as html Hhtml.
    inversion Hc; subst. inversion He; subst.
    rewrite tags_Elem, tagsIn_cons, tags_Elem.
    rewrite (String.eqb_sym "pre" tag), (String.eqb_sym "code" tag).
    change (tagsIn tag []) with 0. unfold added.
    cbn [mdxCount codeBlocks length].
    destruct (tag =? "time"), (tag =? "pre") eqn:Epre,
      (tag =? "code") eqn:Ecode; try reflexivity;
      apply String.eqb_eq in Epre, Ecode; congruence.
Qed.

Lemma renderNode_plain n :
  mdxCount "h1" n = 0 -> codeBlocks n = [] ->
  renderNode currentPage n = inr (embed n).
Proof.
  induction n as [s | t props children IH | lang props code]
    using MdxNode_forall_ind; intros Hh Hc.
  - reflexivity.
  - rewrite renderNode_element.
    cbn [mdxCount codeBlocks] in Hh, Hc.
    destruct (t =? "h1") eqn:E; [simpl in Hh; lia |].
    simpl in Hh. cbn [embed].
    assert (Hl : renderNodes currentPage children = inr (map embed children)).
    { clear E. induction IH as [| x r Hx _ IHr]; simpl; [reflexivity |].
      simpl in Hh, Hc. apply app_eq_nil in Hc. destruct Hc as [Hcx Hcr].
      rewrite Hx by (assumption || lia). simpl.
      rewrite IHr by (assumption || lia). reflexivity. }
    rewrite Hl. reflexivity.
  - discriminate.
Qed.

End TreeWalk.

(** X3: the tree walk neither drops nor repeats an element: in the rendered
    article the elements of any name are those of the tree, plus one [time]
    for each [h1], and one [pre] and one [code] for each code block. *)
Theorem renderNodes_tags
    {R : Runtime} (currentPage : Page.t) (tag : string)
    (children : list MdxNode) (article : list Element) :
  renderNodes currentPage children = inr article ->
  tagsIn tag article =
  mdxCountAll tag children +
  (if tag =? "time" then mdxCountAll "h1" children else 0) +
  (if (tag =? "pre") || (tag =? "code")
   then length (codeBlocksAll children) else 0).
Proof.
  revert article.
  induction children as [| x r IH]; simpl; intros article H.
  - inversion H; subst.
    destruct (tag =? "time"), ((tag =? "pre") || (tag =? "code"));
      reflexivity.
  - invert_bind H as x' Hx'. invert_bind H as r' Hr'. inversion H; subst.
    rewrite tagsIn_cons, (renderNode_tags currentPage tag x Hx'), (IH _ Hr').
    unfold mdxCountAll, codeBlocksAll, added; simpl.
    rewrite length_app.
    destruct (tag =? "time"), ((tag =? "pre") || (tag =? "code")); lia.
Qed.

(** The counts on the post with code in it. *)
Lemma renderNodes_tags_witness :
  renderNodes titledPage withCode =
    inr [ Fragment [Elem "h1" [] [Text "Intro"]; timeElement titledPage];
          Elem "pre" [("lang", PString "jsx")]
            [Elem "code" [("dangerouslySetInnerHTML", PInnerHTML "<App />")] []];
          Elem "blockquote" []
            [ Elem "p" [] [Text "Quoted."];
              Elem "pre" []
                [Elem "code"
                   [("dangerouslySetInnerHTML", PInnerHTML "let x = 1;")] []] ] ] /\
  tagsIn "pre"
    [ Fragment [Elem "h1" [] [Text "Intro"]; timeElement titledPage];
      Elem "pre" [("lang", PString "jsx")]
        [Elem "code" [("dangerouslySetInnerHTML", PInnerHTML "<App />")] []];
      Elem "blockquote" []
        [ Elem "p" [] [Text "Quoted."];
          Elem "pre" []
            [Elem "code"
               [("dangerouslySetInnerHTML", PInnerHTML "let x = 1;")] []] ] ] =
  mdxCountAll "pre" withCode +
  (if "pre" =? "time" then mdxCountAll "h1" withCode else 0) +
  (if ("pre" =? "pre") || ("pre" =? "code")
   then length (codeBlocksAll withCode) else 0).
Proof.
  split; [reflexivity |].
  apply (@renderNodes_tags sampleRuntime titledPage "pre" withCode).
  reflexivity.
Defined.

(** X4: a tree with no [h1] and no code block is rendered as it is: every node
    keeps its tag, its props and its children, in their order, whatever the
    current page is. *)
Theorem renderNodes_plain
    {R : Runtime} (currentPage : Page.t) (children : list MdxNode) :
  mdxCountAll "h1" children = 0 ->
  codeBlocksAll children = [] ->
  renderNodes currentPage children = inr (map embed children).
Proof.
  unfold mdxCountAll, codeBlocksAll.
  induction children as [| x r IH]; simpl; intros Hh Hc; [reflexivity |].
  apply app_eq_nil in Hc. destruct Hc as [Hcx Hcr].
  rewrite renderNode_plain by (assumption || lia). simpl.
  rewrite IH by (assumption || lia). reflexivity.
Qed.

(** The plain tree, rendered for the post that declares nothing. *)
Lemma renderNodes_plain_witness :
  mdxCountAll "h1" plainText = 0 /\
  codeBlocksAll plainText = [] /\
  renderNodes barePage plainText = inr (map embed plainText).
Proof.
  split; [reflexivity |]. split; [reflexivity |].
  apply (@renderNodes_plain sampleRuntime barePage plainText); reflexivity.
Defined.

(** ** The date element of a dated post *)

(** X5: for every document that exports a date, the composed page of a tree
    with an [h1] in it has the date element whose [dateTime] is the exported
    string as it is, and whose text is the host's formatting of that string
    followed by "T00:00". *)
Theorem date_element_with_date
    {R : Runtime} children pages currentPage date title article :
  exportsDate currentPage = Some date ->
  tocTitle currentPage = inr title ->
  renderNodes currentPage children = inr article ->
  0 < mdxCountAll "h1" children ->
  exists out,
    Layout children pages currentPage = inr out /\
    In (Elem "time" [("dateTime", PString date)]
          [Text (toLocaleDateString (date ++ "T00:00"))])
       (descendants out).
Proof.
  intros Hdate Ht Harticle Hpos.
  eexists. split; [exact (Layout_ok children pages _ Ht Harticle) |].
  destruct (renderNodes_date currentPage children Harticle Hpos)
    as (c & Hc & Hin).
  unfold timeElement in Hin. rewrite Hdate in Hin.
  exact (html_article currentPage title title _ _ _ Hc Hin).
Qed.

(** The dated element on the post that exports a date. *)
Lemma date_element_with_date_witness :
  exportsDate titledPage = Some "2025-07-26" /\
  tocTitle titledPage = inr (Some "Intro") /\
  renderNodes titledPage oneHeading =
    inr [ Fragment [Elem "h1" [] [Text "Intro"]; timeElement titledPage];
          Elem "p" [] [Text "Some text."];
          Elem "h2" [] [Text "Details"] ] /\
  0 < mdxCountAll "h1" oneHeading /\
  exists out,
    Layout oneHeading [] titledPage = inr out /\
    In (Elem "time" [("dateTime", PString "2025-07-26")]
          [Text (toLocaleDateString ("2025-07-26" ++ "T00:00"))])
       (descendants out).
Proof.
  split; [reflexivity |]. split; [reflexivity |]. split; [reflexivity |].
  split; [vm_compute; lia |].
  apply (@date_element_with_date
           sampleRuntime oneHeading [] titledPage "2025-07-26" (Some "Intro")
           [ Fragment [Elem "h1" [] [Text "Intro"]; timeElement titledPage];
             Elem "p" [] [Text "Some text."];
             Elem "h2" [] [Text "Details"] ]);
    try reflexivity.
  vm_compute; lia.
Defined.

(** ** What [Layout] reads of the current page *)

Section Reads.

Context {R : Runtime}.

Variables p1 p2 : Page.t.

Hypothesis same_date : exportsDate p1 = exportsDate p2.

Lemma timeElement_reads : timeElement p1 = timeElement p2.
Proof. unfold timeElement. now rewrite same_date. Qed.

Lemma renderNode_reads (n : MdxNode) : renderNode p1 n = renderNode p2 n.
Proof.
  induction n as [s | tag props children IH | lang props code]
    using MdxNode_forall_ind.
  - reflexivity.
  - rewrite !renderNode_element.
    assert (Hl : renderNodes p1 children = renderNodes p2 children).
    { induction IH as [| x r Hx _ IHr]; simpl; [reflexivity |].
      now rewrite Hx, IHr. }
    rewrite Hl. unfold h1. now rewrite timeElement_reads.
  - reflexivity.
Qed.

Lemma renderNodes_reads (l : list MdxNode) :
  renderNodes p1 l = renderNodes p2 l.
Proof.
  induction l as [| x r IH]; simpl; [reflexivity |].
  now rewrite renderNode_reads, IH.
Qed.

End Reads.

(** X6: [Layout] reads four things of the current page and nothing else: its
    url, [exports.description], [exports.date] and the title of the first
    outline entry. Two pages that agree on these give the same result, with
    any trees and any page collections; the name, [exports.title] and the
    rest of the outline make no difference. *)
Theorem Layout_reads
    {R : Runtime} children (pages1 pages2 : list Page.t) (p1 p2 : Page.t) :
  Page.url p1 = Page.url p2 ->
  exportsDescription p1 = exportsDescription p2 ->
  exportsDate p1 = exportsDate p2 ->
  tocTitle p1 = tocTitle p2 ->
  Layout children pages1 p1 = Layout children pages2 p2.
Proof.
  intros Hurl Hdesc Hdate Htoc.
  unfold Layout. rewrite Htoc, (@renderNodes_reads R p1 p2 Hdate children).
  unfold html. now rewrite Hurl, Hdesc.
Qed.

(** The titled post and the same post renamed. *)
Lemma Layout_reads_witness :
  Page.url titledPage = Page.url renamedPage /\
  exportsDescription titledPage = exportsDescription renamedPage /\
  exportsDate titledPage = exportsDate renamedPage /\
  tocTitle titledPage = tocTitle renamedPage /\
  Page.name titledPage <> Page.name renamedPage /\
  Layout withCode [] titledPage = Layout withCode [barePage] renamedPage.
Proof.
  repeat (split; [reflexivity |]).
  split; [discriminate |].
  apply (@Layout_reads sampleRuntime withCode [] [barePage]
           titledPage renamedPage); reflexivity.
Defined.

(** ** The head *)

(** X7: the head of every composed page has the same nine children, none left
    out: it does not depend on the document tree, the title and the
    social-card title carry the same value, and so do the description and
    the social-card description. *)
Theorem head_is_complete
    {R : Runtime} children pages currentPage title article :
  tocTitle currentPage = inr title ->
  renderNodes currentPage children = inr article ->
  exists out,
    Layout children pages currentPage = inr out /\
    documentHead out = documentHead (html currentPage title title []) /\
    length (documentHead out) = 9 /\
    headTitle out = [[childOf title]] /\
    metaContents "property" "og:title" out = [propOf title] /\
    metaContents "property" "og:description" out =
      metaContents "name" "description" out.
Proof.
  intros Ht Harticle.
  eexists. split; [exact (Layout_ok children pages _ Ht Harticle) |].
  repeat split.
Qed.

(** The head of the post that declares nothing. *)
Lemma head_is_complete_witness :
  tocTitle barePage = inr (Some "Intro") /\
  renderNodes barePage plainText = inr (map embed plainText) /\
  exists out,
    Layout plainText [] barePage = inr out /\
    documentHead out = documentHead (html barePage (Some "Intro") (Some "Intro") []) /\
    length (documentHead out) = 9 /\
    headTitle out = [[childOf (Some "Intro")]] /\
    metaContents "property" "og:title" out = [propOf (Some "Intro")] /\
    metaContents "property" "og:description" out =
      metaContents "name" "description" out.
Proof.
  split; [reflexivity |]. split; [reflexivity |].
  apply (@head_is_complete sampleRuntime plainText [] barePage
           (Some "Intro") (map embed plainText)); reflexivity.
Defined.

Lemma substring_all (s : string) : substring 0 (String.length s) s = s.
Proof. induction s as [| c r IH]; simpl; congruence. Qed.

(** X8: the social-card url of every composed page is the site's origin
    followed by the page's url as it is, and nothing else: the origin is a
    prefix of it, and what follows the origin is the url. *)
Theorem og_url_is_origin_and_url
    {R : Runtime} children pages currentPage title article :
  tocTitle currentPage = inr title ->
  renderNodes currentPage children = inr article ->
  exists out,
    Layout children pages currentPage = inr out /\
    metaContents "property" "og:url" out =
      [PString ("https://devongovett.me" ++ Page.url currentPage)] /\
    prefix "https://devongovett.me"
      ("https://devongovett.me" ++ Page.url currentPage) = true /\
    substring (String.length "https://devongovett.me")
      (String.length (Page.url currentPage))
      ("https://devongovett.me" ++ Page.url currentPage) =
    Page.url currentPage.
Proof.
  intros Ht Harticle.
  exists (html currentPage title title article).
  split; [exact (Layout_ok children pages _ Ht Harticle) |].
  split; [reflexivity |]. split.
  - simpl. now destruct (Page.url currentPage).
  - simpl. apply substring_all.
Qed.

(** The social-card url of the titled post. *)
Lemma og_url_is_origin_and_url_witness :
  tocTitle titledPage = inr (Some "Intro") /\
  renderNodes titledPage plainText = inr (map embed plainText) /\
  exists out,
    Layout plainText [] titledPage = inr out /\
    metaContents "property" "og:url" out =
      [PString "https://devongovett.me/blog/titled.html"] /\
    prefix "https://devongovett.me"
      "https://devongovett.me/blog/titled.html" = true /\
    substring (String.length "https://devongovett.me")
      (String.length (Page.url titledPage))
      "https://devongovett.me/blog/titled.html" =
    Page.url titledPage.
Proof.
  split; [reflexivity |]. split; [reflexivity |].
  apply (@og_url_is_origin_and_url sampleRuntime plainText [] titledPage
           (Some "Intro") (map embed plainText)); reflexivity.
Defined.

(** ** Raw HTML *)

Section RawHtml.

Context {R : Runtime}.

Variable currentPage : Page.t.

Lemma rawHtmlIn_descendants (l : list Element) :
  flat_map (fun d => rawOfProps (propsOf d)) (flat_map descendants l) =
  rawHtmlIn l.
Proof.
  induction l as [| e r IH]; simpl; [reflexivity |].
  now rewrite flat_map_app, IH.
Qed.

Lemma rawHtml_Elem tag props children :
  rawHtml (Elem tag props children) =
  (rawOfProps props ++ rawHtmlIn children)%list.
Proof. unfold rawHtml. simpl. now rewrite rawHtmlIn_descendants. Qed.

Lemma rawHtml_Fragment children :
  rawHtml (Fragment children) = rawHtmlIn children.
Proof. unfold rawHtml. simpl. now rewrite rawHtmlIn_descendants. Qed.

Lemma rawHtml_timeElement : rawHtml (timeElement currentPage) = [].
Proof.
  unfold timeElement. rewrite rawHtml_Elem.
  destruct (exportsDate currentPage); reflexivity.
Qed.

Lemma rawOfProps_codeBlockProps lang props :
  rawOfProps (codeBlockProps lang props) = rawOfProps props.
Proof. destruct lang; reflexivity. Qed.

Lemma renderNode_raw n :
  forall e,
    renderNode currentPage n = inr e ->
    mdxRaw n = [] ->
    map (@inr JsError string) (rawHtml e) = map highlighted (codeBlocks n).
Proof.
  induction n as [s | tag props children IH | lang props code]
    using MdxNode_forall_ind; intros e He Hclean.
  - inversion He; reflexivity.
  - rewrite renderNode_element in He. invert_bind He as a Ha.
    cbn [mdxRaw] in Hclean. apply app_eq_nil in Hclean.
    destruct Hclean as [Hprops Hchildren].
    assert (Hl : map (@inr JsError string) (rawHtmlIn a) =
                 map highlighted (codeBlocksAll children)).
    { clear He. revert a Ha.
      induction IH as [| x r Hx _ IHr]; simpl; intros a Ha.
      - inversion Ha; reflexivity.
      - invert_bind Ha as x' Hx'. invert_bind Ha as r' Hr'.
        inversion Ha; subst.
        simpl in Hchildren. apply app_eq_nil in Hchildren.
        destruct Hchildren as [Hcx Hcr].
        unfold rawHtmlIn; simpl. fold (rawHtmlIn r').
        rewrite !map_app, (Hx _ Hx' Hcx), (IHr Hcr _ Hr'). reflexivity. }
    inversion He; subst; clear He.
    cbn [codeBlocks]. fold (codeBlocksAll children). rewrite <- Hl.
    destruct (tag =? "h1").
    + unfold h1. rewrite rawHtml_Fragment. unfold rawHtmlIn at 1. simpl.
      rewrite rawHtml_Elem, rawHtml_timeElement, Hprops. simpl.
      now rewrite app_nil_r.
    + now rewrite rawHtml_Elem, Hprops.
  - unfold renderNode, CodeBlock, codeElement in He.
    invert_bind He as c Hc. invert_bind Hc as html Hhtml.
    inversion Hc; subst. inversion He; subst.
    cbn [mdxRaw] in Hclean.
    rewrite rawHtml_Elem, rawOfProps_codeBlockProps, Hclean.
    unfold rawHtmlIn; simpl. unfold highlighted; simpl.
    now rewrite Hhtml.
Qed.

Lemma renderNodes_raw l :
  forall out,
    renderNodes currentPage l = inr out ->
    mdxRawAll l = [] ->
    map (@inr JsError string) (rawHtmlIn out) =
    map highlighted (codeBlocksAll l).
Proof.
  unfold mdxRawAll.
  induction l as [| x r IH]; simpl; intros out H Hclean.
  - inversion H; reflexivity.
  - invert_bind H as x' Hx'. invert_bind H as r' Hr'. inversion H; subst.
    apply app_eq_nil in Hclean. destruct Hclean as [Hcx Hcr].
    unfold rawHtmlIn; simpl. fold (rawHtmlIn r').
    rewrite !map_app, (renderNode_raw x Hx' Hcx), (IH _ Hr' Hcr).
    reflexivity.
Qed.

Lemma html_raw title ogTitle article :
  rawHtml (html currentPage title ogTitle article) = rawHtmlIn article.
Proof.
  unfold html.
  repeat (rewrite rawHtml_Elem; unfold rawHtmlIn at 1; simpl flat_map).
  fold (rawHtmlIn article).
  destruct title, ogTitle, (exportsDescription currentPage); simpl;
    now rewrite ?app_nil_r.
Qed.

End RawHtml.

(** X9: raw HTML enters the page only as the highlighter's output. For a tree
    whose own props carry none, the raw HTML of the composed page is, in
    document order, exactly what the highlighter returned for each code
    block of the tree: nothing of the page's title, description, url or
    date is injected as markup. *)
Theorem raw_html_is_highlighted_code
    {R : Runtime} children pages currentPage title article :
  tocTitle currentPage = inr title ->
  renderNodes currentPage children = inr article ->
  mdxRawAll children = [] ->
  exists out,
    Layout children pages currentPage = inr out /\
    map (@inr JsError string) (rawHtml out) =
    map highlighted (codeBlocksAll children).
Proof.
  intros Ht Harticle Hclean.
  eexists. split; [exact (Layout_ok children pages _ Ht Harticle) |].
  rewrite html_raw.
  exact (renderNodes_raw currentPage children Harticle Hclean).
Qed.

(** The raw HTML of the post with code in it. *)
Lemma raw_html_is_highlighted_code_witness :
  tocTitle titledPage = inr (Some "Intro") /\
  renderNodes titledPage withCode =
    inr [ Fragment [Elem "h1" [] [Text "Intro"]; timeElement titledPage];
          Elem "pre" [("lang", PString "jsx")]
            [Elem "code" [("dangerouslySetInnerHTML", PInnerHTML "<App />")] []];
          Elem "blockquote" []
            [ Elem "p" [] [Text "Quoted."];
              Elem "pre" []
                [Elem "code"
                   [("dangerouslySetInnerHTML", PInnerHTML "let x = 1;")] []] ] ] /\
  mdxRawAll withCode = [] /\
  exists out,
    Layout withCode [] titledPage = inr out /\
    map (@inr JsError string) (rawHtml out) =
    map highlighted (codeBlocksAll withCode).
Proof.
  split; [reflexivity |]. split; [reflexivity |]. split; [reflexivity |].
  apply (@raw_html_is_highlighted_code sampleRuntime withCode [] titledPage
           (Some "Intro")
           [ Fragment [Elem "h1" [] [Text "Intro"]; timeElement titledPage];
             Elem "pre" [("lang", PString "jsx")]
               [Elem "code"
                  [("dangerouslySetInnerHTML", PInnerHTML "<App />")] []];
             Elem "blockquote" []
               [ Elem "p" [] [Text "Quoted."];
                 Elem "pre" []
                   [Elem "code"
                      [("dangerouslySetInnerHTML", PInnerHTML "let x = 1;")]
                      []] ] ]);
    reflexivity.
Defined.

(** ** The date element after each heading *)

Section Headings.

Context {R : Runtime}.

Variable currentPage : Page.t.

Lemma followedBy_no_h1 (date : Element) (l : list Element) :
  Forall (fun e => hasTag "h1" e = false) l -> followedBy date l.
Proof.
  induction 1 as [| e r He _ IH]; simpl; [exact I |].
  split; [| exact IH]. intros H. congruence.
Qed.

Lemma headingsDated_timeElement (date : Element) :
  headingsDated date (timeElement currentPage).
Proof.
  unfold timeElement. simpl. repeat split; intros H; discriminate H.
Qed.

(** What renders from a node is never an [h1] element itself, and each [h1]
    inside it has the page's date element as its next sibling. *)
Lemma renderNode_headings (n : MdxNode) :
  forall e,
    renderNode currentPage n = inr e ->
    hasTag "h1" e = false /\
    headingsDated (timeElement currentPage) e.
Proof.
  induction n as [s | tag props children IH | lang props code]
    using MdxNode_forall_ind; intros e He.
  - inversion He; subst. simpl. auto.
  - rewrite renderNode_element in He. invert_bind He as a Ha.
    assert (Hl : Forall (fun c => hasTag "h1" c = false) a /\
                 allDated (timeElement currentPage) a).
    { clear He. revert a Ha.
      induction IH as [| x r Hx _ IHr]; simpl; intros a Ha.
      - inversion Ha; subst. split; [constructor | exact I].
      - invert_bind Ha as x' Hx'. invert_bind Ha as r' Hr'.
        inversion Ha; subst.
        destruct (Hx _ Hx') as [Hxh Hxd]. destruct (IHr _ Hr') as [Hrh Hrd].
        split; [now constructor | now split]. }
    destruct Hl as [Hh Hd].
    pose proof (followedBy_no_h1 (timeElement currentPage) Hh) as Hf.
    inversion He; subst; clear He.
    destruct (String.eqb_spec tag "h1") as [-> | Hneq].
    + unfold h1. split; [reflexivity |].
      cbn [headingsDated childrenOf followedBy fold_right hd_error hasTag].
      repeat split; try assumption.
      * intros H. discriminate H.
      * apply headingsDated_timeElement.
    + split.
      * simpl. now apply String.eqb_neq.
      * cbn [headingsDated childrenOf]. now split.
  - unfold renderNode, CodeBlock, codeElement in He.
    invert_bind He as c Hc. invert_bind Hc as html Hhtml.
    inversion Hc; subst. inversion He; subst.
    split; [reflexivity |].
    simpl. repeat split; intros H; discriminate H.
Qed.

Lemma renderNodes_headings (l : list MdxNode) :
  forall out,
    renderNodes currentPage l = inr out ->
    Forall (fun c => hasTag "h1" c = false) out /\
    allDated (timeElement currentPage) out.
Proof.
  induction l as [| x r IH]; simpl; intros out H.
  - inversion H; subst. split; [constructor | exact I].
  - invert_bind H as x' Hx'. invert_bind H as r' Hr'. inversion H; subst.
    destruct (renderNode_headings x Hx') as [Hxh Hxd].
    destruct (IH _ Hr') as [Hrh Hrd].
    split; [now constructor | now split].
Qed.

Lemma html_headings date title ogTitle article :
  Forall (fun c => hasTag "h1" c = false) article ->
  allDated date article ->
  headingsDated date (html currentPage title ogTitle article).
Proof.
  intros Hh Hd.
  pose proof (followedBy_no_h1 date Hh) as Hf.
  unfold html.
  cbn [headingsDated childrenOf followedBy fold_right hd_error hasTag].
  destruct title; simpl;
    repeat split; try assumption; intros H; discriminate H.
Qed.

Lemma html_h1s title ogTitle article :
  length (elementsByTagName "h1" (html currentPage title ogTitle article)) =
  tagsIn "h1" article.
Proof.
  unfold html. repeat rewrite ?tags_Elem, ?tagsIn_cons.
  generalize (tagsIn "h1" article); intros k.
  destruct title; simpl; change (tagsIn "h1" []) with 0; lia.
Qed.

Lemma renderNodes_h1s (l : list MdxNode) :
  forall out,
    renderNodes currentPage l = inr out ->
    tagsIn "h1" out = mdxCountAll "h1" l.
Proof.
  induction l as [| x r IH]; simpl; intros out H.
  - inversion H; reflexivity.
  - invert_bind H as x' Hx'. invert_bind H as r' Hr'. inversion H; subst.
    rewrite tagsIn_cons, (renderNode_tags currentPage "h1" x Hx'), (IH _ Hr').
    unfold mdxCountAll, added; simpl. lia.
Qed.

End Headings.

(** A date that comes before its heading, or a heading followed by another
    date, does not count. *)
Example headingsDated_rejects_misplaced_date :
  ~ headingsDated (Elem "time" [("dateTime", PUndefined)] [Text "Invalid Date"])
      (Elem "article" []
         [ Elem "time" [("dateTime", PUndefined)] [Text "Invalid Date"];
           Elem "h1" [] [Text "First"];
           Elem "p" [] [Text "Some text."];
           Elem "h1" [] [Text "Second"];
           Elem "time" [("dateTime", PString "1970-01-01")] [Text "1970-01-01"] ]).
Proof.
  simpl. intros [[_ [H _]] _]. specialize (H eq_refl). discriminate H.
Qed.

(** C4, amended: for every document whose [exports.date] is absent, the date
    element is still produced for each [h1] of the document tree. Every [h1]
    of the tree is in the composed page, and every [h1] of the page has the
    date element as its next sibling: a [time] element with no [dateTime]
    value, whose text is the host's formatting of the date parsed from
    "undefinedT00:00". *)
Theorem C4_date_element_without_date
    {R : Runtime} children pages currentPage title article :
  exportsDate currentPage = None ->
  tocTitle currentPage = inr title ->
  renderNodes currentPage children = inr article ->
  exists out,
    Layout children pages currentPage = inr out /\
    length (elementsByTagName "h1" out) = mdxCountAll "h1" children /\
    headingsDated
      (Elem "time" [("dateTime", PUndefined)]
         [Text (toLocaleDateString "undefinedT00:00")])
      out /\
    mdxCountAll "h1" children <= length (elementsByTagName "time" out) /\
    (0 < mdxCountAll "h1" children ->
     In (Elem "time" [("dateTime", PUndefined)]
           [Text (toLocaleDateString "undefinedT00:00")])
        (descendants out)).
Proof.
  intros Hdate Ht Harticle.
  assert (Htime : timeElement currentPage =
                  Elem "time" [("dateTime", PUndefined)]
                    [Text (toLocaleDateString "undefinedT00:00")]).
  { unfold timeElement. now rewrite Hdate. }
  destruct (Layout_times children pages _ Ht Harticle) as (out & Hout & Hn).
  exists out. split; [assumption |].
  rewrite (Layout_ok children pages _ Ht Harticle) in Hout.
  inversion Hout; subst out.
  destruct (renderNodes_headings currentPage children Harticle) as [Hh Hd].
  split; [| split; [| split]].
  - rewrite html_h1s. exact (renderNodes_h1s currentPage children Harticle).
  - rewrite <- Htime. now apply html_headings.
  - lia.
  - intros Hpos.
    destruct (renderNodes_date currentPage children Harticle Hpos)
      as (c & Hc & Hin).
    rewrite Htime in Hin.
    exact (html_article currentPage title title _ _ _ Hc Hin).
Qed.

(** The amended C4 on the post that declares nothing. *)
Lemma C4_date_element_without_date_witness :
  exportsDate barePage = None /\
  tocTitle barePage = inr (Some "Intro") /\
  renderNodes barePage twoHeadings =
    inr [ Fragment [Elem "h1" [] [Text "First"]; timeElement barePage];
          Elem "p" [] [Text "Some text."];
          Fragment [Elem "h1" [] [Text "Second"]; timeElement barePage] ] /\
  exists out,
    Layout twoHeadings [] barePage = inr out /\
    length (elementsByTagName "h1" out) = mdxCountAll "h1" twoHeadings /\
    headingsDated
      (Elem "time" [("dateTime", PUndefined)]
         [Text (toLocaleDateString "undefinedT00:00")])
      out /\
    mdxCountAll "h1" twoHeadings <= length (elementsByTagName "time" out) /\
    (0 < mdxCountAll "h1" twoHeadings ->
     In (Elem "time" [("dateTime", PUndefined)]
           [Text (toLocaleDateString "undefinedT00:00")])
        (descendants out)).
Proof.
  split; [reflexivity |]. split; [reflexivity |]. split; [reflexivity |].
  apply (@C4_date_element_without_date
           sampleRuntime twoHeadings [] barePage (Some "Intro")
           [ Fragment [Elem "h1" [] [Text "First"]; timeElement barePage];
             Elem "p" [] [Text "Some text."];
             Fragment [Elem "h1" [] [Text "Second"]; timeElement barePage] ]);
    reflexivity.
Defined.
